(** * The Android load hook of react-native-nitro-bg-timer

    android/src/main/cpp/cpp-adapter.cpp defines one exported function,
    [JNI_OnLoad], which hands the JavaVM pointer to fbjni's
    [facebook::jni::initialize] together with a closure that calls the
    generated [margelo::nitro::backgroundtimer::initialize].

    The two callees live outside the translation unit.  The hook is
    therefore embedded as a function of its collaborators, in a monad that
    threads the process state and lets a call end by raising. *)

From Stdlib Require Import ZArith List Bool Lia FunctionalExtensionality.
Import ListNotations.

(** ** Effects *)

(** [jint] of jni.h: a 32-bit signed integer; the hook does no arithmetic
    on it. *)
Definition jint : Type := Z.

(** How a C++ call ends: it returns a value or an exception leaves it. *)
Inductive outcome (E A : Type) : Type :=
| Returned (a : A)
| Raised (e : E).

Arguments Returned {E A} a.
Arguments Raised {E A} e.

(** A computation over process state [S]; the state reached is kept when
    an exception is raised, as side effects are in C++. *)
Definition M (S E A : Type) : Type := S -> outcome E A * S.

Definition ret {S E A : Type} (a : A) : M S E A :=
  fun s => (Returned a, s).

Definition bind {S E A B : Type} (m : M S E A) (k : A -> M S E B) : M S E B :=
  fun s =>
    match m s with
    | (Returned a, s') => k a s'
    | (Raised e, s') => (Raised e, s')
    end.

Declare Scope hook_scope.
Delimit Scope hook_scope with hook.
Notation "x <- c ;; k" := (bind c (fun x => k))
  (at level 61, c at next level, right associativity) : hook_scope.
Notation "c ;;; k" := (bind c (fun _ => k))
  (at level 61, right associativity) : hook_scope.
Local Open Scope hook_scope.

(** What the caller receives, and the state the call leaves behind. *)
Definition status {S E A : Type} (r : outcome E A * S) : outcome E A := fst r.
Definition final {S E A : Type} (r : outcome E A * S) : S := snd r.

(** A computation with its returned value thrown away; raising is kept. *)
Definition discard {S E A : Type} (m : M S E A) : M S E unit :=
  fun s =>
    match m s with
    | (Returned _, s') => (Returned tt, s')
    | (Raised e, s') => (Raised e, s')
    end.

(** ** cpp-adapter.cpp *)

Section Adapter.

(** The types behind [JavaVM *] and behind the [void *] second parameter:
    both opaque here. *)
Variables JavaVM Reserved : Type.
(** Process state, exceptions, and whatever the registration routine
    returns (its header is not part of the translation unit). *)
Variables S E R : Type.

(** [facebook::jni::initialize], applied to the [JavaVM *] and the closure. *)
Variable facebook_jni_initialize : JavaVM -> M S E unit -> M S E jint.
(** [margelo::nitro::backgroundtimer::initialize], applied to the [JavaVM *]. *)
Variable margelo_nitro_backgroundtimer_initialize : JavaVM -> M S E R.

(** The closure [[=] { margelo::nitro::backgroundtimer::initialize(vm); }]:
    no parameters, [vm] captured, the call is an expression statement. *)
Definition JNI_OnLoad_lambda (vm : JavaVM) : M S E unit :=
  margelo_nitro_backgroundtimer_initialize vm ;;; ret tt.

(** [JNIEXPORT jint JNICALL JNI_OnLoad]: the [JavaVM *vm] and an unnamed
    [void *]; the body is the one [return]. *)
Definition JNI_OnLoad (vm : JavaVM) (_ : Reserved) : M S E jint :=
  facebook_jni_initialize vm (JNI_OnLoad_lambda vm).

End Adapter.

Arguments JNI_OnLoad_lambda {JavaVM S E R} _ _.
Arguments JNI_OnLoad {JavaVM Reserved S E R} _ _ _ _.

(** ** The translation unit *)

Section TranslationUnit.

Variables JavaVM Reserved S E R : Type.

(** The initializers of the namespace-scope objects that the three
    included headers, fbjni/fbjni.h, jni.h and
    NitroBackgroundTimerOnLoad.hpp, bring into the translation unit.  The
    headers are not among the sources at hand, so what they contribute is
    left open. *)
Variable header_initializers : list (M S E unit).

Variable facebook_jni_initialize : JavaVM -> M S E unit -> M S E jint.
Variable margelo_nitro_backgroundtimer_initialize : JavaVM -> M S E R.

(** The translation unit as the loader sees it: the initializers of its
    namespace-scope objects, run in order before any export is called, and
    the exported entry point. *)
Record translation_unit : Type := {
  static_initializers : list (M S E unit);
  export_JNI_OnLoad : JavaVM -> Reserved -> M S E jint
}.

(** What cpp-adapter.cpp itself declares at namespace scope: lines 1 to 5
    are the includes, lines 6 to 10 the function, and no object is declared
    anywhere. *)
Definition own_initializers : list (M S E unit) := [].

Definition cpp_adapter : translation_unit :=
  {| static_initializers := header_initializers ++ own_initializers;
     export_JNI_OnLoad :=
       JNI_OnLoad facebook_jni_initialize
         margelo_nitro_backgroundtimer_initialize |}.

Fixpoint run_initializers (l : list (M S E unit)) : M S E unit :=
  match l with
  | [] => ret tt
  | i :: rest => i ;;; run_initializers rest
  end.

(** What happens when the library is mapped, before the entry point is
    called. *)
Definition before_load (tu : translation_unit) : M S E unit :=
  run_initializers (static_initializers tu).

(** The loader: static initialization, then the call of [JNI_OnLoad]. *)
Definition load_translation_unit (tu : translation_unit)
  (vm : JavaVM) (reserved : Reserved) : M S E jint :=
  before_load tu ;;; export_JNI_OnLoad tu vm reserved.

End TranslationUnit.

Arguments static_initializers {JavaVM Reserved S E} _.
Arguments export_JNI_OnLoad {JavaVM Reserved S E} _.
Arguments own_initializers {S E}.
Arguments cpp_adapter {JavaVM Reserved S E R} _ _ _.
Arguments run_initializers {S E} _.
Arguments before_load {JavaVM Reserved S E} _.
Arguments load_translation_unit {JavaVM Reserved S E} _ _ _.

(** An initializer that changes nothing and completes. *)
Definition effect_free {S E : Type} (i : M S E unit) : Prop :=
  forall s, i s = (Returned tt, s).

(** ** The collaborators *)

Section Collaborators.

Variables JavaVM World E R : Type.

(** Calls received by the collaborators, in order. *)
Inductive call : Type :=
| CallInitialize (vm : JavaVM)
| CallRegisterModule (vm : JavaVM).

Definition call_handle (c : call) : JavaVM :=
  match c with
  | CallInitialize vm => vm
  | CallRegisterModule vm => vm
  end.

Definition is_register (c : call) : bool :=
  match c with
  | CallInitialize _ => false
  | CallRegisterModule _ => true
  end.

Definition registrations (l : list call) : nat :=
  length (filter is_register l).

(** The host process: the collaborators' own state and the calls they
    have received so far. *)
Record host : Type := {
  calls : list call;
  world : World
}.

Definition record (c : call) (w : World) (h : host) : host :=
  {| calls := calls h ++ [c]; world := w |}.

(** The binding layer setting itself up for a host handle: whether it
    succeeded, and the state it leaves. *)
Variable acquire : JavaVM -> World -> bool * World.
(** The fixed version value reported on success. *)
Variable version_code : jint.
(** What the binding layer signals when its set-up fails. *)
Variable failure_signal : outcome E jint.
(** What registering the module does to the process. *)
Variable register_effect : JavaVM -> World -> R * World.

(** Modelled from the spec: the module registration routine
    [margelo::nitro::backgroundtimer::initialize], declared in the
    generated header NitroBackgroundTimerOnLoad.hpp, which is missing.
    "exposes a registerModule(HostHandle) -> void capability"; the only
    error kind of the spec is raised by the binding layer, so the routine
    returns. *)
Definition registerModule (vm : JavaVM) : M host E R :=
  fun h =>
    let (r, w) := register_effect vm (world h) in
    (Returned r, record (CallRegisterModule vm) w h).

(** Modelled from the spec: the binding layer's
    [initialize(HostHandle, InitCallback) -> VersionStatusCode] (fbjni's
    [facebook::jni::initialize], missing).  "acquire binding context, run
    a caller-supplied action inside it, release/report status"; "a
    recognized fixed version value is returned on success"; when the
    binding layer's own initialization fails the callback is not run;
    what the callback signals is passed on. *)
Definition initialize (vm : JavaVM) (init_fn : M host E unit) : M host E jint :=
  fun h =>
    let (ok, w) := acquire vm (world h) in
    let h1 := record (CallInitialize vm) w h in
    if ok then (init_fn ;;; ret version_code) h1
    else (failure_signal, h1).

(** The hook linked against these collaborators. *)
Definition load_library {Reserved : Type} (vm : JavaVM) (reserved : Reserved)
  : M host E jint :=
  JNI_OnLoad initialize registerModule vm reserved.

End Collaborators.

Arguments CallInitialize {JavaVM} vm.
Arguments CallRegisterModule {JavaVM} vm.
Arguments call_handle {JavaVM} c.
Arguments is_register {JavaVM} c.
Arguments registrations {JavaVM} l.
Arguments calls {JavaVM World} h.
Arguments world {JavaVM World} h.
Arguments record {JavaVM World} c w h.
Arguments registerModule {JavaVM World E R} register_effect vm _.
Arguments initialize {JavaVM World E} acquire version_code failure_signal vm init_fn _.
Arguments load_library {JavaVM World E R} acquire version_code failure_signal
  register_effect {Reserved} vm reserved _.

(** ** A concrete host, for running the hook *)

Module Mock.

(** A host handle is an address. *)
Definition JavaVM : Type := nat.
(** The reserved [void *]: [None] is the null pointer. *)
Definition Reserved : Type := option nat.

Inductive failure : Type := InitializationFailure.

(** The process: is the binding layer up, and which handles the module
    has been registered with. *)
Record World : Type := {
  binding_ready : bool;
  registered_with : list JavaVM
}.

Definition fresh_world : World :=
  {| binding_ready := false; registered_with := [] |}.

Definition fresh : host JavaVM World :=
  {| calls := []; world := fresh_world |}.

(** Codes of jni.h. *)
Definition JNI_VERSION_1_6 : jint := 65542%Z.
Definition JNI_ERR : jint := (-1)%Z.

(** The binding layer comes up unless a fault is injected. *)
Definition acquire (fault : bool) (_ : JavaVM) (w : World) : bool * World :=
  if fault then (false, w)
  else (true, {| binding_ready := true; registered_with := registered_with w |}).

Definition register_effect (vm : JavaVM) (w : World) : unit * World :=
  (tt, {| binding_ready := binding_ready w;
          registered_with := vm :: registered_with w |}).

(** Two registration routines that differ only in what they return. *)
Definition register_returning (code : jint) (vm : JavaVM)
  : M (host JavaVM World) failure jint :=
  fun h => (Returned code,
            record (CallRegisterModule vm) (snd (register_effect vm (world h))) h).

(** The hook on the mock host. *)
Definition JNI_OnLoad (fault : bool) (vm : JavaVM) (reserved : Reserved)
  : M (host JavaVM World) failure jint :=
  load_library (acquire fault) JNI_VERSION_1_6 (Returned JNI_ERR)
    register_effect vm reserved.

(** Headers whose namespace-scope objects need no work at load time. *)
Definition header_initializers : list (M (host JavaVM World) failure unit) :=
  [ret tt; ret tt; ret tt].

End Mock.

(** ** A binding layer that keeps the callback *)

Module Keeping.

(** A stand-in for the binding layer, whose source is not at hand: it
    takes the callback it is given and keeps it, to run it when told to,
    after initialize has returned.  The process holds the handles the
    module has been registered with and the callback kept, as the change
    it will make to that list. *)
Record process : Type := {
  registered : list Mock.JavaVM;
  kept : option (list Mock.JavaVM -> list Mock.JavaVM)
}.

Definition start : process := {| registered := []; kept := None |}.

Definition registerModule (vm : Mock.JavaVM) : M process Mock.failure unit :=
  fun p => (Returned tt, {| registered := vm :: registered p; kept := kept p |}).

Definition initialize (_ : Mock.JavaVM) (init_fn : M process Mock.failure unit)
  : M process Mock.failure jint :=
  fun p =>
    (Returned Mock.JNI_VERSION_1_6,
     {| registered := registered p;
        kept := Some (fun l =>
                  registered (final (init_fn {| registered := l; kept := None |}))) |}).

(** The binding layer running the callback it kept. *)
Definition run_kept (p : process) : process :=
  match kept p with
  | Some callback => {| registered := callback (registered p); kept := None |}
  | None => p
  end.

End Keeping.

(** ** Successive calls of the entry point *)

(** The host calling [JNI_OnLoad] once per entry of the list, in order, on
    the recording host; a call that raises ends the sequence, as an
    exception leaving the entry point would. *)
Fixpoint load_all {JavaVM World E R Reserved : Type}
  (acquire : JavaVM -> World -> bool * World) (version_code : jint)
  (failure_signal : outcome E jint)
  (register_effect : JavaVM -> World -> R * World)
  (l : list (JavaVM * Reserved)) : M (host JavaVM World) E unit :=
  match l with
  | [] => ret tt
  | (vm, reserved) :: rest =>
      load_library acquire version_code failure_signal register_effect
        vm reserved ;;;
      load_all acquire version_code failure_signal register_effect rest
  end.

(** The calls one successful load makes. *)
Definition calls_of_load {JavaVM Reserved : Type} (p : JavaVM * Reserved)
  : list (call JavaVM) :=
  [CallInitialize (fst p); CallRegisterModule (fst p)].

(** * Properties *)

(** ** Helper facts *)

Lemma bind_ret_discard {S E A : Type} (m : M S E A) :
  m ;;; ret tt = discard m.
Proof.
  apply functional_extensionality; intro s.
  unfold bind, discard, ret.
  destruct (m s) as [[a | e] s']; reflexivity.
Qed.

Lemma JNI_OnLoad_lambda_discards
  {JavaVM S E R : Type} (reg : JavaVM -> M S E R) (vm : JavaVM) :
  JNI_OnLoad_lambda reg vm = discard (reg vm).
Proof. unfold JNI_OnLoad_lambda. apply bind_ret_discard. Qed.

Lemma registrations_app {JavaVM : Type} (l1 l2 : list (call JavaVM)) :
  registrations (l1 ++ l2) = registrations l1 + registrations l2.
Proof.
  unfold registrations. rewrite filter_app, length_app. reflexivity.
Qed.

Section Linked.

Variables JavaVM World E R Reserved : Type.
Variable acquire : JavaVM -> World -> bool * World.
Variable version_code : jint.
Variable failure_signal : outcome E jint.
Variable register_effect : JavaVM -> World -> R * World.

Local Abbreviation load :=
  (load_library acquire version_code failure_signal register_effect).

(** One run of the linked hook, spelled out. *)
Lemma load_library_run (vm : JavaVM) (r : Reserved) (h : host JavaVM World) :
  load vm r h =
  if fst (acquire vm (world h))
  then (Returned version_code,
        {| calls := calls h ++ [CallInitialize vm; CallRegisterModule vm];
           world := snd (register_effect vm (snd (acquire vm (world h)))) |})
  else (failure_signal,
        {| calls := calls h ++ [CallInitialize vm];
           world := snd (acquire vm (world h)) |}).
Proof.
  unfold load_library, JNI_OnLoad, initialize, JNI_OnLoad_lambda,
    registerModule, bind, ret, record.
  destruct (acquire vm (world h)) as [[|] w]; cbn; [| reflexivity].
  destruct (register_effect vm w) as [x w']; cbn.
  rewrite <- app_assoc. reflexivity.
Qed.

(** C2: whenever the binding layer's initialization succeeds for the
    handle the hook is called with, [JNI_OnLoad] returns the fixed
    version code; this holds for every handle, so for every valid one. *)
Theorem JNI_OnLoad_success_returns_version
  (vm : JavaVM) (r : Reserved) (h : host JavaVM World) :
  fst (acquire vm (world h)) = true ->
  status (load vm r h) = Returned version_code.
Proof.
  intros Hok. rewrite load_library_run, Hok. reflexivity.
Qed.

(** C3: when the call of the entry point is successful, that is, it
    returns the version code, the registration routine has been invoked
    exactly once during it: the number of registration calls the host has
    received grew by one, neither by zero nor by more. *)
Theorem JNI_OnLoad_success_registers_exactly_once
  (vm : JavaVM) (r : Reserved) (h : host JavaVM World) :
  failure_signal <> Returned version_code ->
  status (load vm r h) = Returned version_code ->
  registrations (calls (final (load vm r h))) = S (registrations (calls h)).
Proof.
  intros Hsig. rewrite load_library_run.
  destruct (fst (acquire vm (world h))); cbn [status final fst snd calls].
  - intros _. rewrite registrations_app. cbn. lia.
  - intros Hst. contradiction.
Qed.

(** C4: when the binding layer's initialization fails, the entry point
    returns the binding layer's failure signal, which is not the version
    code, and the registration routine is not invoked: the host has
    received no registration call beyond those it had. *)
Theorem JNI_OnLoad_failure_never_registers
  (vm : JavaVM) (r : Reserved) (h : host JavaVM World) :
  failure_signal <> Returned version_code ->
  fst (acquire vm (world h)) = false ->
  status (load vm r h) = failure_signal
  /\ status (load vm r h) <> Returned version_code
  /\ calls (final (load vm r h)) = calls h ++ [CallInitialize vm]
  /\ registrations (calls (final (load vm r h))) = registrations (calls h).
Proof.
  intros Hsig Hfail. rewrite load_library_run, Hfail.
  cbn [status final fst snd calls].
  repeat split; try assumption.
  rewrite registrations_app. cbn. lia.
Qed.

(** C5: called with handle H where the binding layer's initialization
    succeeds, the hook yields the fixed version code and the host receives
    the binding layer's initialize for H followed by exactly one
    registerModule(H), with that same H. *)
Theorem JNI_OnLoad_registers_same_handle
  (H : JavaVM) (r : Reserved) (h : host JavaVM World) :
  fst (acquire H (world h)) = true ->
  status (load H r h) = Returned version_code
  /\ calls (final (load H r h)) =
     calls h ++ [CallInitialize H; CallRegisterModule H].
Proof.
  intros Hok. rewrite load_library_run, Hok. split; reflexivity.
Qed.

End Linked.

(** ** The hook against arbitrary collaborators *)

Section Shim.

Variables JavaVM Reserved S E R : Type.
Variable facebook_jni_initialize : JavaVM -> M S E unit -> M S E jint.
Variable margelo_nitro_backgroundtimer_initialize : JavaVM -> M S E R.

Local Abbreviation on_load :=
  (JNI_OnLoad facebook_jni_initialize margelo_nitro_backgroundtimer_initialize).
Local Abbreviation lambda :=
  (JNI_OnLoad_lambda margelo_nitro_backgroundtimer_initialize).

(** C1: whatever binding layer and registration routine the hook is
    linked against, what [JNI_OnLoad] hands back to the host (a status
    code, or a failure raised through it) is what the call of
    [facebook::jni::initialize] on the same handle with the hook's closure
    handed back: nothing is inspected, wrapped or translated. *)
Theorem JNI_OnLoad_returns_initialize_result
  (vm : JavaVM) (r : Reserved) (s : S) :
  status (on_load vm r s) = status (facebook_jni_initialize vm (lambda vm) s).
Proof. reflexivity. Qed.

End Shim.

(** C10: the closure handed to initialize takes no argument and drops what
    the registration routine returns.  So two registration routines, even
    of different return types, that act alike on the process and differ
    only in the value they return give the same status (and the same final
    state), for every binding layer and every handle. *)
Theorem JNI_OnLoad_ignores_registration_value
  {JavaVM Reserved S E R1 R2 : Type}
  (facebook_jni_initialize : JavaVM -> M S E unit -> M S E jint)
  (register1 : JavaVM -> M S E R1) (register2 : JavaVM -> M S E R2)
  (vm : JavaVM) (r : Reserved) (s : S) :
  (forall v s0, discard (register1 v) s0 = discard (register2 v) s0) ->
  status (JNI_OnLoad facebook_jni_initialize register1 vm r s) =
  status (JNI_OnLoad facebook_jni_initialize register2 vm r s)
  /\ JNI_OnLoad facebook_jni_initialize register1 vm r s =
     JNI_OnLoad facebook_jni_initialize register2 vm r s.
Proof.
  intros Hsame.
  assert (Hl : JNI_OnLoad_lambda register1 vm = JNI_OnLoad_lambda register2 vm).
  { rewrite !JNI_OnLoad_lambda_discards.
    apply functional_extensionality; intro s0. apply Hsame. }
  unfold JNI_OnLoad. rewrite Hl. split; reflexivity.
Qed.

(** C6: the reserved second parameter is unused.  For every handle and any
    two values of the reserved parameter the two runs agree on the status
    and on the state they leave, whatever the collaborators; on a host that
    records the calls it receives, they leave the same list of
    binding-layer and registration calls. *)
Theorem JNI_OnLoad_reserved_unused :
  (forall (JavaVM Reserved S E R : Type)
          (facebook_jni_initialize : JavaVM -> M S E unit -> M S E jint)
          (margelo_nitro_backgroundtimer_initialize : JavaVM -> M S E R)
          (H : JavaVM) (r1 r2 : Reserved) (s : S),
      status (JNI_OnLoad facebook_jni_initialize
                margelo_nitro_backgroundtimer_initialize H r1 s) =
      status (JNI_OnLoad facebook_jni_initialize
                margelo_nitro_backgroundtimer_initialize H r2 s)
      /\ final (JNI_OnLoad facebook_jni_initialize
                  margelo_nitro_backgroundtimer_initialize H r1 s) =
         final (JNI_OnLoad facebook_jni_initialize
                  margelo_nitro_backgroundtimer_initialize H r2 s))
  /\ (forall (JavaVM World E R Reserved : Type)
             (acquire : JavaVM -> World -> bool * World)
             (version_code : jint) (failure_signal : outcome E jint)
             (register_effect : JavaVM -> World -> R * World)
             (H : JavaVM) (r1 r2 : Reserved) (h : host JavaVM World),
         status (load_library acquire version_code failure_signal
                   register_effect H r1 h) =
         status (load_library acquire version_code failure_signal
                   register_effect H r2 h)
         /\ calls (final (load_library acquire version_code failure_signal
                            register_effect H r1 h)) =
            calls (final (load_library acquire version_code failure_signal
                            register_effect H r2 h))).
Proof.
  split; intros; split; reflexivity.
Qed.

(** C8: the hook only passes the handle on.  Whatever the collaborators,
    its whole run is the binding layer's initialize applied to the very
    handle it was given and to a closure that applies the registration
    routine to that same handle and drops the result; it does nothing
    else, so nothing of the hook reads or writes through the handle.  On
    the recording host the calls received are exactly initialize for that
    handle and, when the binding layer's set-up succeeds, registerModule
    for that handle, and the process state is what the set-up and the
    registration made of it for that handle.  The hook is also uniform in
    the type of handles: it commutes with every renaming of them. *)
Theorem JNI_OnLoad_handle_pass_through :
  (forall (JavaVM Reserved S E R : Type)
          (facebook_jni_initialize : JavaVM -> M S E unit -> M S E jint)
          (margelo_nitro_backgroundtimer_initialize : JavaVM -> M S E R)
          (vm : JavaVM) (r : Reserved) (s : S),
      JNI_OnLoad facebook_jni_initialize
        margelo_nitro_backgroundtimer_initialize vm r s =
      facebook_jni_initialize vm
        (discard (margelo_nitro_backgroundtimer_initialize vm)) s)
  /\ (forall (JavaVM World E R Reserved : Type)
             (acquire : JavaVM -> World -> bool * World)
             (version_code : jint) (failure_signal : outcome E jint)
             (register_effect : JavaVM -> World -> R * World)
             (vm : JavaVM) (r : Reserved) (h : host JavaVM World),
         calls (final (load_library acquire version_code failure_signal
                         register_effect vm r h)) =
           calls h ++
           CallInitialize vm ::
           (if fst (acquire vm (world h)) then [CallRegisterModule vm] else [])
         /\ world (final (load_library acquire version_code failure_signal
                            register_effect vm r h)) =
            (if fst (acquire vm (world h))
             then snd (register_effect vm (snd (acquire vm (world h))))
             else snd (acquire vm (world h))))
  /\ (forall (H1 H2 Reserved S E R : Type) (f : H1 -> H2)
             (facebook_jni_initialize : H2 -> M S E unit -> M S E jint)
             (margelo_nitro_backgroundtimer_initialize : H2 -> M S E R)
             (vm : H1) (r : Reserved) (s : S),
         JNI_OnLoad (fun v => facebook_jni_initialize (f v))
                    (fun v => margelo_nitro_backgroundtimer_initialize (f v))
                    vm r s =
         JNI_OnLoad facebook_jni_initialize
                    margelo_nitro_backgroundtimer_initialize (f vm) r s).
Proof.
  split; [| split; [| reflexivity]].
  - intros. unfold JNI_OnLoad.
    rewrite JNI_OnLoad_lambda_discards. reflexivity.
  - intros. rewrite load_library_run.
    destruct (fst (acquire vm (world h))); split; reflexivity.
Qed.

(** ** The translation unit when the library is loaded *)

Lemma run_initializers_effect_free {S E : Type} (l : list (M S E unit)) :
  Forall effect_free l -> forall s, run_initializers l s = (Returned tt, s).
Proof.
  induction 1 as [| i rest Hi _ IH]; intros s; [reflexivity |].
  cbn [run_initializers]. unfold bind. rewrite (Hi s). apply IH.
Qed.

Section Loaded.

Variables JavaVM World E R Reserved : Type.
Variable header_initializers : list (M (host JavaVM World) E unit).
Variable acquire : JavaVM -> World -> bool * World.
Variable version_code : jint.
Variable failure_signal : outcome E jint.
Variable register_effect : JavaVM -> World -> R * World.

Local Abbreviation linked_adapter :=
  (@cpp_adapter JavaVM Reserved (host JavaVM World) E R header_initializers
     (initialize acquire version_code failure_signal)
     (registerModule register_effect)).

(** C7: cpp-adapter.cpp adds no static initializer of its own, so when
    those of the objects brought in by its headers change nothing, nothing
    happens before the entry point is called.  Loading the library is then
    the one call of the binding layer's initialize on the closure: the
    host receives exactly one initialize call and, only when the set-up
    succeeds and from inside that call, one registration call; and the
    process state is changed by the set-up and by the registration alone,
    the hook having no state of its own to add. *)
Theorem cpp_adapter_acts_only_through_initialize
  (vm : JavaVM) (r : Reserved) (h : host JavaVM World) :
  Forall effect_free header_initializers ->
  before_load linked_adapter h = (Returned tt, h)
  /\ load_translation_unit linked_adapter vm r h =
     initialize acquire version_code failure_signal vm
       (discard (registerModule register_effect vm)) h
  /\ calls (final (load_translation_unit linked_adapter vm r h)) =
     calls h ++
     CallInitialize vm ::
     (if fst (acquire vm (world h)) then [CallRegisterModule vm] else [])
  /\ world (final (load_translation_unit linked_adapter vm r h)) =
     (if fst (acquire vm (world h))
      then snd (register_effect vm (snd (acquire vm (world h))))
      else snd (acquire vm (world h))).
Proof.
  intros Hheaders.
  assert (Hbefore : before_load linked_adapter h = (Returned tt, h)).
  { unfold before_load. cbn [static_initializers cpp_adapter].
    unfold own_initializers. rewrite app_nil_r.
    apply run_initializers_effect_free. exact Hheaders. }
  assert (Hload : load_translation_unit linked_adapter vm r h =
                  load_library acquire version_code failure_signal
                    register_effect vm r h).
  { unfold load_translation_unit, bind. rewrite Hbefore. reflexivity. }
  split; [exact Hbefore | split].
  - rewrite Hload. unfold load_library, JNI_OnLoad.
    rewrite JNI_OnLoad_lambda_discards. reflexivity.
  - rewrite Hload, load_library_run.
    destruct (fst (acquire vm (world h))); split; reflexivity.
Qed.

End Loaded.

(** ** How long the handle is in use *)


(** Every call made by a sequence of loads carries the handle of one of
    them. *)
Lemma load_all_calls_handles
  {JavaVM World E R Reserved : Type}
  (acquire : JavaVM -> World -> bool * World) (version_code : jint)
  (failure_signal : outcome E jint)
  (register_effect : JavaVM -> World -> R * World)
  (l : list (JavaVM * Reserved)) :
  forall h : host JavaVM World,
  exists added,
    calls (final (load_all acquire version_code failure_signal
                    register_effect l h)) = calls h ++ added
    /\ Forall (fun c => In (call_handle c) (map fst l)) added.
Proof.
  induction l as [| [vm r] rest IH]; intros h.
  - exists []. cbn. rewrite app_nil_r. split; constructor.
  - cbn [load_all map fst]. unfold bind. rewrite load_library_run.
    destruct (fst (acquire vm (world h))).
    + match goal with
      | |- context [load_all _ _ _ _ rest ?h1] =>
          destruct (IH h1) as [added [Hc Hf]]
      end.
      exists ([CallInitialize vm; CallRegisterModule vm] ++ added). split.
      * rewrite Hc. cbn [calls]. rewrite <- app_assoc. reflexivity.
      * apply Forall_app. split.
        -- repeat constructor; left; reflexivity.
        -- eapply Forall_impl; [| exact Hf]. intros c Hin. right. exact Hin.
    + destruct failure_signal as [c | e].
      * match goal with
        | |- context [load_all _ _ _ _ rest ?h1] =>
            destruct (IH h1) as [added [Hc Hf]]
        end.
        exists ([CallInitialize vm] ++ added). split.
        -- rewrite Hc. cbn [calls]. rewrite <- app_assoc. reflexivity.
        -- apply Forall_app. split.
           ++ repeat constructor; left; reflexivity.
           ++ eapply Forall_impl; [| exact Hf]. intros c0 Hin. right. exact Hin.
      * exists [CallInitialize vm]. split; [reflexivity |].
        repeat constructor; left; reflexivity.
Qed.


(** ** The theorems at work on the mock host *)

Lemma JNI_OnLoad_success_returns_version_witness :
  fst (Mock.acquire false 7 (world Mock.fresh)) = true
  /\ status (Mock.JNI_OnLoad false 7 None Mock.fresh) =
     Returned Mock.JNI_VERSION_1_6.
Proof.
  split; [reflexivity |].
  apply (JNI_OnLoad_success_returns_version _ _ _ _ _
           (Mock.acquire false) Mock.JNI_VERSION_1_6 (Returned Mock.JNI_ERR)
           Mock.register_effect 7 None Mock.fresh).
  reflexivity.
Defined.

Lemma JNI_OnLoad_success_registers_exactly_once_witness :
  status (Mock.JNI_OnLoad false 7 None Mock.fresh) =
    Returned Mock.JNI_VERSION_1_6
  /\ registrations (calls (final (Mock.JNI_OnLoad false 7 None Mock.fresh))) = 1.
Proof.
  split; [reflexivity |].
  apply (JNI_OnLoad_success_registers_exactly_once _ _ _ _ _
           (Mock.acquire false) Mock.JNI_VERSION_1_6 (Returned Mock.JNI_ERR)
           Mock.register_effect 7 None Mock.fresh).
  - discriminate.
  - reflexivity.
Defined.

Lemma JNI_OnLoad_failure_never_registers_witness :
  fst (Mock.acquire true 7 (world Mock.fresh)) = false
  /\ status (Mock.JNI_OnLoad true 7 None Mock.fresh) = Returned Mock.JNI_ERR
  /\ status (Mock.JNI_OnLoad true 7 None Mock.fresh) <>
     Returned Mock.JNI_VERSION_1_6
  /\ calls (final (Mock.JNI_OnLoad true 7 None Mock.fresh)) =
     calls Mock.fresh ++ [CallInitialize 7]
  /\ registrations (calls (final (Mock.JNI_OnLoad true 7 None Mock.fresh))) =
     registrations (calls Mock.fresh).
Proof.
  split; [reflexivity |].
  apply (JNI_OnLoad_failure_never_registers _ _ _ _ _
           (Mock.acquire true) Mock.JNI_VERSION_1_6 (Returned Mock.JNI_ERR)
           Mock.register_effect 7 None Mock.fresh).
  - discriminate.
  - reflexivity.
Defined.

Lemma JNI_OnLoad_registers_same_handle_witness :
  fst (Mock.acquire false 7 (world Mock.fresh)) = true
  /\ status (Mock.JNI_OnLoad false 7 None Mock.fresh) =
     Returned Mock.JNI_VERSION_1_6
  /\ calls (final (Mock.JNI_OnLoad false 7 None Mock.fresh)) =
     calls Mock.fresh ++ [CallInitialize 7; CallRegisterModule 7].
Proof.
  split; [reflexivity |].
  apply (JNI_OnLoad_registers_same_handle _ _ _ _ _
           (Mock.acquire false) Mock.JNI_VERSION_1_6 (Returned Mock.JNI_ERR)
           Mock.register_effect 7 None Mock.fresh).
  reflexivity.
Defined.

Lemma cpp_adapter_acts_only_through_initialize_witness :
  Forall effect_free Mock.header_initializers
  /\ calls (final (load_translation_unit
                     (cpp_adapter Mock.header_initializers
                        (initialize (Mock.acquire false) Mock.JNI_VERSION_1_6
                           (Returned Mock.JNI_ERR))
                        (registerModule Mock.register_effect))
                     7 (@None nat) Mock.fresh)) =
     [CallInitialize 7; CallRegisterModule 7].
Proof.
  assert (Hh : Forall effect_free Mock.header_initializers).
  { repeat constructor. }
  split; [exact Hh |].
  apply (cpp_adapter_acts_only_through_initialize
           Mock.JavaVM Mock.World Mock.failure unit Mock.Reserved
           Mock.header_initializers (Mock.acquire false)
           Mock.JNI_VERSION_1_6 (Returned Mock.JNI_ERR) Mock.register_effect
           7 None Mock.fresh Hh).
Defined.


Lemma JNI_OnLoad_ignores_registration_value_witness :
  status (JNI_OnLoad
            (initialize (Mock.acquire false) Mock.JNI_VERSION_1_6
               (Returned Mock.JNI_ERR))
            (Mock.register_returning 0%Z) 7 (@None nat) Mock.fresh) =
  status (JNI_OnLoad
            (initialize (Mock.acquire false) Mock.JNI_VERSION_1_6
               (Returned Mock.JNI_ERR))
            (Mock.register_returning 7%Z) 7 (@None nat) Mock.fresh).
Proof.
  apply (JNI_OnLoad_ignores_registration_value
           (initialize (Mock.acquire false) Mock.JNI_VERSION_1_6
              (Returned Mock.JNI_ERR))
           (Mock.register_returning 0%Z) (Mock.register_returning 7%Z)
           7 (@None nat) Mock.fresh).
  intros v s0. reflexivity.
Defined.

(** ** Further properties of the hook *)

(** X1: the closure handed to initialize has no handler of its own.  When
    the registration routine raises, the closure raises the same exception;
    when it returns, the closure returns; either way the process state is
    the one the registration routine left. *)
Theorem JNI_OnLoad_lambda_propagates
  {JavaVM S E R : Type}
  (margelo_nitro_backgroundtimer_initialize : JavaVM -> M S E R)
  (vm : JavaVM) (s : S) :
  final (JNI_OnLoad_lambda margelo_nitro_backgroundtimer_initialize vm s) =
    final (margelo_nitro_backgroundtimer_initialize vm s)
  /\ (forall e,
        status (JNI_OnLoad_lambda margelo_nitro_backgroundtimer_initialize vm s)
          = Raised e <->
        status (margelo_nitro_backgroundtimer_initialize vm s) = Raised e)
  /\ (status (JNI_OnLoad_lambda margelo_nitro_backgroundtimer_initialize vm s)
        = Returned tt <->
      exists x,
        status (margelo_nitro_backgroundtimer_initialize vm s) = Returned x).
Proof.
  unfold JNI_OnLoad_lambda, bind, ret, status, final.
  destruct (margelo_nitro_backgroundtimer_initialize vm s) as [[x | e0] s'];
    cbn [fst snd].
  - split; [reflexivity | split].
    + intros e; split; intros Habs; discriminate Habs.
    + split; [intros _; exists x; reflexivity | intros _; reflexivity].
  - split; [reflexivity | split].
    + intros e; split; intros Heq; inversion Heq; reflexivity.
    + split; [intros Habs; discriminate Habs |].
      intros [x Habs]; discriminate Habs.
Qed.

Lemma flat_map_calls_registrations {JavaVM Reserved : Type}
  (l : list (JavaVM * Reserved)) :
  registrations (flat_map calls_of_load l) = length l.
Proof.
  induction l as [| p l IH]; [reflexivity |].
  cbn [flat_map length]. rewrite registrations_app, IH. reflexivity.
Qed.

(** One successful call at the head of the sequence. *)
Lemma load_all_cons_ok
  {JavaVM World E R Reserved : Type}
  (acquire : JavaVM -> World -> bool * World) (version_code : jint)
  (failure_signal : outcome E jint)
  (register_effect : JavaVM -> World -> R * World)
  (vm : JavaVM) (r : Reserved) (rest : list (JavaVM * Reserved))
  (h : host JavaVM World) :
  fst (acquire vm (world h)) = true ->
  load_all acquire version_code failure_signal register_effect
    ((vm, r) :: rest) h =
  load_all acquire version_code failure_signal register_effect rest
    {| calls := calls h ++ [CallInitialize vm; CallRegisterModule vm];
       world := snd (register_effect vm (snd (acquire vm (world h)))) |}.
Proof.
  intros Hok. cbn [load_all]. unfold bind.
  rewrite load_library_run, Hok. reflexivity.
Qed.

(** X3: the hook keeps no once-guard.  On the recording host, when the
    binding layer's set-up succeeds every time, successive calls of the
    entry point all complete and each one adds an initialize call and a
    registration call for its own handle, in order: n calls leave n more
    registrations. *)
Theorem load_all_registers_every_time
  {JavaVM World E R Reserved : Type}
  (acquire : JavaVM -> World -> bool * World) (version_code : jint)
  (failure_signal : outcome E jint)
  (register_effect : JavaVM -> World -> R * World)
  (l : list (JavaVM * Reserved)) (h : host JavaVM World) :
  (forall vm w, fst (acquire vm w) = true) ->
  status (load_all acquire version_code failure_signal register_effect l h)
    = Returned tt
  /\ calls (final (load_all acquire version_code failure_signal
                     register_effect l h))
     = calls h ++ flat_map calls_of_load l
  /\ registrations
       (calls (final (load_all acquire version_code failure_signal
                        register_effect l h)))
     = registrations (calls h) + length l.
Proof.
  intros Hok.
  assert (Hrun :
    status (load_all acquire version_code failure_signal register_effect l h)
      = Returned tt
    /\ calls (final (load_all acquire version_code failure_signal
                       register_effect l h))
       = calls h ++ flat_map calls_of_load l).
  { revert h. induction l as [| [vm r] rest IH]; intros h.
    - cbn. rewrite app_nil_r. split; reflexivity.
    - rewrite load_all_cons_ok by apply Hok.
      destruct (IH {| calls := calls h ++ [CallInitialize vm; CallRegisterModule vm];
                      world := snd (register_effect vm
                                      (snd (acquire vm (world h)))) |})
        as [IHs IHc].
      split; [exact IHs |].
      rewrite IHc. cbn [calls flat_map calls_of_load fst].
      rewrite <- app_assoc. reflexivity. }
  destruct Hrun as [Hs Hc]. split; [exact Hs | split; [exact Hc |]].
  rewrite Hc, registrations_app, flat_map_calls_registrations. reflexivity.
Qed.

(** ** These at work on the mock hosts *)

Lemma load_all_registers_every_time_witness :
  status (load_all (Mock.acquire false) Mock.JNI_VERSION_1_6
            (@Returned Mock.failure jint Mock.JNI_ERR) Mock.register_effect
            [(7, @None nat); (7, Some 1); (9, None)] Mock.fresh)
    = Returned tt
  /\ calls (final (load_all (Mock.acquire false) Mock.JNI_VERSION_1_6
                     (@Returned Mock.failure jint Mock.JNI_ERR) Mock.register_effect
                     [(7, @None nat); (7, Some 1); (9, None)] Mock.fresh))
     = [CallInitialize 7; CallRegisterModule 7;
        CallInitialize 7; CallRegisterModule 7;
        CallInitialize 9; CallRegisterModule 9]
  /\ registrations
       (calls (final (load_all (Mock.acquire false) Mock.JNI_VERSION_1_6
                        (@Returned Mock.failure jint Mock.JNI_ERR) Mock.register_effect
                        [(7, @None nat); (7, Some 1); (9, None)] Mock.fresh)))
     = 3.
Proof.
  apply (load_all_registers_every_time
           (Mock.acquire false) Mock.JNI_VERSION_1_6 (@Returned Mock.failure jint Mock.JNI_ERR)
           Mock.register_effect
           [(7, @None nat); (7, Some 1); (9, None)] Mock.fresh).
  intros vm w. reflexivity.
Defined.
